(** * Reddit User MCP gateway: a shallow embedding of [src/index.ts]

    The gateway registers nine tools; each handler forwards its arguments
    to one method of [RedditAPIClient], which performs one HTTP request
    through an axios instance and wraps the outcome in a tool result.

    Modelling choices.
    - JavaScript values that travel as JSON are the inductive [Json.t];
      [undefined] is the [None] of an [option].  Numbers are the
      integer-valued ones and are carried by [Z].
    - Strings are [string]; a JavaScript string is read as the sequence of
      its UTF-8 bytes.
    - An [async] function is a computation in the monad [M]: it threads the
      world (backend, log of requests sent, console) and completes
      normally or by throwing. *)

From Stdlib Require Import ZArith List String Ascii Bool Lia.
From Stdlib Require Import Numbers.DecimalString.
Import ListNotations.

Set Warnings "-register-all".

Local Open Scope string_scope.
Local Open Scope Z_scope.

(** ** Strings *)

Module Str.

(** [Array.prototype.join] on already stringified items. *)
Fixpoint join (sep : string) (items : list string) : string :=
  match items with
  | [] => ""
  | [x] => x
  | x :: rest => x ++ sep ++ join sep rest
  end.

(** [String.prototype.includes]. *)
Fixpoint includes (hay needle : string) : bool :=
  String.prefix needle hay
  || match hay with
     | EmptyString => false
     | String _ rest => includes rest needle
     end.

(** The property [includes] decides. *)
Definition Contains (hay needle : string) : Prop :=
  exists before after, hay = before ++ needle ++ after.

(** [Number.prototype.toString] on an integer-valued number. *)
Definition of_Z (n : Z) : string := NilEmpty.string_of_int (Z.to_int n).

Fixpoint spaces (n : nat) : string :=
  match n with
  | O => ""
  | S k => String " " (spaces k)
  end.

Definition newline : string := String (ascii_of_nat 10) "".

Definition dquote : string := String (ascii_of_nat 34) "".

End Str.

(** Lookup in a list of named values: the first entry under [key]. *)
Fixpoint assoc {A : Type} (key : string) (l : list (string * A)) : option A :=
  match l with
  | [] => None
  | (k, v) :: rest => if String.eqb k key then Some v else assoc key rest
  end.

(** ** JSON values and [JSON.stringify] *)

Module Json.

Inductive t : Type :=
| JNull
| JBool (b : bool)
| JNum (n : Z)
| JStr (s : string)
| JArr (items : list t)
| JObj (members : list (string * t)).
(* [JObj] lists the own enumerable properties in enumeration order. *)

(** The own property [key] of [v]; [None] is [undefined].  Primitives and
    arrays have no own or inherited property under the names the gateway
    reads ([posts], [replyId], [commentId], [limit]). *)
Definition own_field (v : t) (key : string) : option t :=
  match v with
  | JObj members => assoc key members
  | _ => None
  end.

(** ToBoolean.  A missing value ([undefined]) is falsy. *)
Definition truthy (v : option t) : bool :=
  match v with
  | None => false
  | Some JNull => false
  | Some (JBool b) => b
  | Some (JNum n) => negb (n =? 0)
  | Some (JStr s) => negb (String.eqb s "")
  | Some (JArr _) => true
  | Some (JObj _) => true
  end.

(** ToString, as a template literal applies it. *)
Fixpoint to_string (v : t) : string :=
  match v with
  | JNull => "null"
  | JBool true => "true"
  | JBool false => "false"
  | JNum n => Str.of_Z n
  | JStr s => s
  | JArr items =>
      Str.join ","
        (map (fun item => match item with
                          | JNull => ""
                          | _ => to_string item
                          end) items)
  | JObj _ => "[object Object]"
  end.

Definition hex_digit (n : nat) : ascii :=
  match n with
  | 0 => "0" | 1 => "1" | 2 => "2" | 3 => "3" | 4 => "4" | 5 => "5"
  | 6 => "6" | 7 => "7" | 8 => "8" | 9 => "9" | 10 => "a" | 11 => "b"
  | 12 => "c" | 13 => "d" | 14 => "e" | _ => "f"
  end%nat%char.

(** One code unit of QuoteJSONString. *)
Definition escape_char (c : ascii) : string :=
  let n := nat_of_ascii c in
  if Nat.eqb n 34 then "\" ++ Str.dquote
  else if Nat.eqb n 92 then "\\"
  else if Nat.eqb n 8 then "\b"
  else if Nat.eqb n 9 then "\t"
  else if Nat.eqb n 10 then "\n"
  else if Nat.eqb n 12 then "\f"
  else if Nat.eqb n 13 then "\r"
  else if Nat.ltb n 32 then
    "\u00" ++ String (hex_digit (Nat.div n 16))
                (String (hex_digit (Nat.modulo n 16)) "")
  else String c "".

Fixpoint escape (s : string) : string :=
  match s with
  | EmptyString => ""
  | String c rest => escape_char c ++ escape rest
  end.

Definition quote (s : string) : string :=
  Str.dquote ++ escape s ++ Str.dquote.

(** Wrapping of the serialized parts of an array or of an object. *)
Definition wrap (opening closing gap indent : string)
    (partial : list string) : string :=
  match partial with
  | [] => opening ++ closing
  | _ =>
      if String.eqb gap "" then
        opening ++ Str.join "," partial ++ closing
      else
        let stepped := indent ++ gap in
        opening ++ Str.newline ++ stepped
          ++ Str.join ("," ++ Str.newline ++ stepped) partial
          ++ Str.newline ++ indent ++ closing
  end.

(** SerializeJSONProperty with no replacer, at indentation [indent]. *)
Fixpoint serialize (gap indent : string) (v : t) : string :=
  match v with
  | JNull => "null"
  | JBool true => "true"
  | JBool false => "false"
  | JNum n => Str.of_Z n
  | JStr s => quote s
  | JArr items =>
      wrap "[" "]" gap indent (map (serialize gap (indent ++ gap)) items)
  | JObj members =>
      wrap "{" "}" gap indent
        (map (fun member : string * t =>
                let (key, value) := member in
                quote key ++ ":" ++ (if String.eqb gap "" then "" else " ")
                  ++ serialize gap (indent ++ gap) value)
             members)
  end.

(** [JSON.stringify(value, null, space)] for a numeric [space]. *)
Definition stringify (v : t) (space : nat) : string :=
  serialize (Str.spaces (Nat.min space 10)) "" v.

End Json.


(** ** Exceptions, the world and the monad of [async] functions *)

Module Js.

(** A thrown [Error] object: its [name] and [message]. *)
Record Error : Type := mkError { name : string; message : string }.

(** [Error.prototype.toString], which a template literal applies to a
    caught error. *)
Definition error_to_string (e : Error) : string :=
  if String.eqb (name e) "" then message e
  else if String.eqb (message e) "" then name e
  else name e ++ ": " ++ message e.

(** Reading property [key] of [null]. *)
Definition null_access (key : string) : Error :=
  mkError "TypeError"
    ("Cannot read properties of null (reading '" ++ key ++ "')").

End Js.

Module Http.

Inductive Method : Type := GET | POST.

(** A request as axios dispatches it: the instance defaults merged with
    the arguments of the call.  [headers] are the headers the instance was
    created with.  A parameter whose value is [None] was passed as
    [undefined]. *)
Record Request : Type := mkRequest {
  method : Method;
  baseURL : string;
  url : string;
  headers : list (string * string);
  params : list (string * option Json.t);
  data : option Json.t
}.

(** What the transport reports: a response of the backend, or an error
    raised before any response (connection refused and the like). *)
Inductive Outcome : Type :=
| Responded (status : Z) (body : Json.t)
| Failed (e : Js.Error).

(** The backend answers a request knowing the requests it got before. *)
Definition Backend : Type := list Request -> Request -> Outcome.

End Http.

Record World : Type := mkWorld {
  backend : Http.Backend;
  sent : list Http.Request;
  console : list (string * Js.Error)
}.

Inductive Completion (A : Type) : Type :=
| Normal (a : A)
| Throw (e : Js.Error).
Arguments Normal {A} a.
Arguments Throw {A} e.

Definition M (A : Type) : Type := World -> Completion A * World.

Definition ret {A : Type} (a : A) : M A := fun w => (Normal a, w).

Definition throw {A : Type} (e : Js.Error) : M A := fun w => (Throw e, w).

Definition bind {A B : Type} (m : M A) (k : A -> M B) : M B :=
  fun w =>
    match m w with
    | (Normal a, w') => k a w'
    | (Throw e, w') => (Throw e, w')
    end.

(** [try { body } catch (error) { handler }]. *)
Definition try_catch {A : Type} (body : M A) (handler : Js.Error -> M A) : M A :=
  fun w =>
    match body w with
    | (Normal a, w') => (Normal a, w')
    | (Throw e, w') => handler e w'
    end.

(** [console.error(label, error)]. *)
Definition console_error (label : string) (e : Js.Error) : M unit :=
  fun w =>
    (Normal tt,
     {| backend := backend w; sent := sent w;
        console := console w ++ [(label, e)] |}).

Declare Scope async_scope.
Delimit Scope async_scope with async.
Notation "'await' x <- m ;; k" := (bind m (fun x => k))
  (at level 61, x name, m at next level, right associativity) : async_scope.
Notation "m ;; k" := (bind m (fun _ => k))
  (at level 61, right associativity) : async_scope.
Local Open Scope async_scope.

(** [value.key]: reading a property of [null] throws. *)
Definition get_prop (value : Json.t) (key : string) : M (option Json.t) :=
  match value with
  | Json.JNull => throw (Js.null_access key)
  | _ => ret (Json.own_field value key)
  end.

(** [value || fallback]. *)
Definition or_else (value : option Json.t) (fallback : Json.t) : Json.t :=
  match value with
  | Some v => if Json.truthy value then v else fallback
  | None => fallback
  end.

(** A parameter with a default value: [undefined] takes the default. *)
Definition default_to {A : Type} (arg : option A) (d : A) : A :=
  match arg with
  | Some a => a
  | None => d
  end.

(** ** The axios instance *)

Module Axios.

Record Instance : Type := create {
  baseURL : string;
  headers : list (string * string)
}.

Record Response : Type := mkResponse { status : Z; data : Json.t }.

(** The default [validateStatus]. *)
Definition validateStatus (status : Z) : bool :=
  (200 <=? status) && (status <? 300).

Definition status_error (status : Z) : Js.Error :=
  Js.mkError "AxiosError"
    ("Request failed with status code " ++ Str.of_Z status).

(** How the promise of a request settles on what the transport reports. *)
Definition settle (outcome : Http.Outcome) : Completion Response :=
  match outcome with
  | Http.Responded st body =>
      if validateStatus st then Normal (mkResponse st body)
      else Throw (status_error st)
  | Http.Failed e => Throw e
  end.

(** Dispatch of one request: it is logged as sent, the backend answers,
    and the promise settles on the answer. *)
Definition request (req : Http.Request) : M Response :=
  fun w =>
    (settle (backend w (sent w) req),
     {| backend := backend w; sent := sent w ++ [req];
        console := console w |}).

(** [instance.get(url, { params })]. *)
Definition get (inst : Instance) (url : string)
    (params : list (string * option Json.t)) : M Response :=
  request (Http.mkRequest Http.GET (baseURL inst) url (headers inst) params None).

(** [instance.post(url, data)]. *)
Definition post (inst : Instance) (url : string) (data : Json.t) : M Response :=
  request (Http.mkRequest Http.POST (baseURL inst) url (headers inst) [] (Some data)).

End Axios.

(** ** class RedditAPIClient *)

Module RedditAPIClient.

Record t : Type := mk {
  axiosInstance : Axios.Instance;
  accessToken : string;
  apiBaseUrl : string
}.

Definition new (accessToken apiBaseUrl : string) : t :=
  {| accessToken := accessToken;
     apiBaseUrl := apiBaseUrl;
     axiosInstance :=
       Axios.create apiBaseUrl
         [("Authorization", "Bearer " ++ accessToken);
          ("Content-Type", "application/json")] |}.

Definition str (s : option string) : option Json.t := option_map Json.JStr s.

Definition getUserPosts (this : t) (username : option string)
    (limit : option Z) : M Json.t :=
  let limit := default_to limit 25 in
  await response <-
    Axios.get (axiosInstance this) "/api/reddit/mcp/user-posts"
      [("username", str username); ("limit", Some (Json.JNum limit))] ;;
  ret (Axios.data response).

Definition getUserComments (this : t) (username : option string)
    (limit : option Z) : M Json.t :=
  let limit := default_to limit 25 in
  await response <-
    Axios.get (axiosInstance this) "/api/reddit/mcp/user-comments"
      [("username", str username); ("limit", Some (Json.JNum limit))] ;;
  ret (Axios.data response).

Definition getPostComments (this : t) (postId : string)
    (subreddit : option string) : M Json.t :=
  await response <-
    Axios.get (axiosInstance this) "/api/reddit/mcp/post-comments"
      [("postId", Some (Json.JStr postId)); ("subreddit", str subreddit)] ;;
  ret (Axios.data response).

Definition hideComment (this : t) (commentId : string) : M bool :=
  try_catch
    (Axios.post (axiosInstance this) "/api/reddit/mcp/hide-comment"
       (Json.JObj [("commentId", Json.JStr commentId)]) ;;
     ret true)
    (fun error =>
       console_error "Failed to hide comment:" error ;;
       ret false).

Definition replyToComment (this : t) (commentId text : string) : M Json.t :=
  try_catch
    (await response <-
       Axios.post (axiosInstance this) "/api/reddit/mcp/reply-comment"
         (Json.JObj [("commentId", Json.JStr commentId);
                     ("text", Json.JStr text)]) ;;
     await replyId <- get_prop (Axios.data response) "replyId" ;;
     ret (or_else replyId Json.JNull))
    (fun error =>
       console_error "Failed to reply to comment:" error ;;
       ret Json.JNull).

Definition postComment (this : t) (postId text : string) : M Json.t :=
  try_catch
    (await response <-
       Axios.post (axiosInstance this) "/api/reddit/mcp/post-comment"
         (Json.JObj [("postId", Json.JStr postId);
                     ("text", Json.JStr text)]) ;;
     await commentId <- get_prop (Axios.data response) "commentId" ;;
     ret (or_else commentId Json.JNull))
    (fun error =>
       console_error "Failed to post comment:" error ;;
       ret Json.JNull).

Definition getHotPosts (this : t) (subreddit : string)
    (limit : option Z) : M Json.t :=
  let limit := default_to limit 25 in
  try_catch
    (await response <-
       Axios.post (axiosInstance this) "/api/reddit/mcp/hot-posts"
         (Json.JObj [("subreddit", Json.JStr subreddit);
                     ("limit", Json.JNum limit)]) ;;
     await posts <- get_prop (Axios.data response) "posts" ;;
     ret (or_else posts (Json.JArr [])))
    (fun error =>
       console_error "Failed to get hot posts:" error ;;
       throw error).

Definition getNewPosts (this : t) (subreddit : string)
    (limit : option Z) : M Json.t :=
  let limit := default_to limit 25 in
  try_catch
    (await response <-
       Axios.post (axiosInstance this) "/api/reddit/mcp/new-posts"
         (Json.JObj [("subreddit", Json.JStr subreddit);
                     ("limit", Json.JNum limit)]) ;;
     await posts <- get_prop (Axios.data response) "posts" ;;
     ret (or_else posts (Json.JArr [])))
    (fun error =>
       console_error "Failed to get new posts:" error ;;
       throw error).

Definition getRisingPosts (this : t) (subreddit : string)
    (limit : option Z) : M Json.t :=
  let limit := default_to limit 25 in
  try_catch
    (await response <-
       Axios.post (axiosInstance this) "/api/reddit/mcp/rising-posts"
         (Json.JObj [("subreddit", Json.JStr subreddit);
                     ("limit", Json.JNum limit)]) ;;
     await posts <- get_prop (Axios.data response) "posts" ;;
     ret (or_else posts (Json.JArr [])))
    (fun error =>
       console_error "Failed to get rising posts:" error ;;
       throw error).

End RedditAPIClient.

(** ** createServer: the nine registered tools *)

Record Config : Type := mkConfig { REDDABLE_API_KEY : string }.

Record TextContent : Type := mkText { type : string; text : string }.

(** The value a tool callback returns.  [isError] is [None] where the
    callback leaves the field out. *)
Record ToolResult : Type := mkResult {
  content : list TextContent;
  isError : option bool
}.

(** [z.number().min(1).max(100).default(25)]: the parsed limit, or [None]
    when the schema refuses the input. *)
Definition limit_schema (input : option Z) : option Z :=
  match input with
  | None => Some 25
  | Some n => if (1 <=? n) && (n <=? 100) then Some n else None
  end.

(** A tool call: the name of a registered tool with arguments of the types
    its input schema declares; an optional argument left out is [None]. *)
Inductive ToolCall : Type :=
| Call_get_user_posts (username : option string) (limit : option Z)
| Call_get_user_comments (username : option string) (limit : option Z)
| Call_get_post_comments (postId : string) (subreddit : option string)
| Call_hide_comment (commentId : string)
| Call_reply_to_comment (commentId text : string)
| Call_post_comment (postId text : string)
| Call_get_hot_posts (subreddit : string) (limit : option Z)
| Call_get_new_posts (subreddit : string) (limit : option Z)
| Call_get_rising_posts (subreddit : string) (limit : option Z).

Definition tool_name (call : ToolCall) : string :=
  match call with
  | Call_get_user_posts _ _ => "get_user_posts"
  | Call_get_user_comments _ _ => "get_user_comments"
  | Call_get_post_comments _ _ => "get_post_comments"
  | Call_hide_comment _ => "hide_comment"
  | Call_reply_to_comment _ _ => "reply_to_comment"
  | Call_post_comment _ _ => "post_comment"
  | Call_get_hot_posts _ _ => "get_hot_posts"
  | Call_get_new_posts _ _ => "get_new_posts"
  | Call_get_rising_posts _ _ => "get_rising_posts"
  end.

(** The input schemas applied to a call: every limit goes through
    [limit_schema]; the string arguments are already of their type. *)
Definition parse_arguments (call : ToolCall) : option ToolCall :=
  match call with
  | Call_get_user_posts username limit =>
      option_map (fun l => Call_get_user_posts username (Some l)) (limit_schema limit)
  | Call_get_user_comments username limit =>
      option_map (fun l => Call_get_user_comments username (Some l)) (limit_schema limit)
  | Call_get_hot_posts subreddit limit =>
      option_map (fun l => Call_get_hot_posts subreddit (Some l)) (limit_schema limit)
  | Call_get_new_posts subreddit limit =>
      option_map (fun l => Call_get_new_posts subreddit (Some l)) (limit_schema limit)
  | Call_get_rising_posts subreddit limit =>
      option_map (fun l => Call_get_rising_posts subreddit (Some l)) (limit_schema limit)
  | _ => Some call
  end.

Definition text_result (s : string) : ToolResult :=
  {| content := [ {| type := "text"; text := s |} ]; isError := None |}.

Definition error_result (s : string) : ToolResult :=
  {| content := [ {| type := "text"; text := s |} ]; isError := Some true |}.

Section createServer.

Variable config : Config.

Definition redditClient : RedditAPIClient.t :=
  RedditAPIClient.new (REDDABLE_API_KEY config) "https://reddable.vercel.app".

Definition get_user_posts (username : option string) (limit : option Z)
    : M ToolResult :=
  let limit := default_to limit 25 in
  try_catch
    (await posts <- RedditAPIClient.getUserPosts redditClient username (Some limit) ;;
     ret (text_result (Json.stringify posts 2)))
    (fun error =>
       ret (error_result ("Error fetching user posts: " ++ Js.error_to_string error))).

Definition get_user_comments (username : option string) (limit : option Z)
    : M ToolResult :=
  let limit := default_to limit 25 in
  try_catch
    (await comments <- RedditAPIClient.getUserComments redditClient username (Some limit) ;;
     ret (text_result (Json.stringify comments 2)))
    (fun error =>
       ret (error_result ("Error fetching user comments: " ++ Js.error_to_string error))).

Definition get_post_comments (postId : string) (subreddit : option string)
    : M ToolResult :=
  try_catch
    (await comments <- RedditAPIClient.getPostComments redditClient postId subreddit ;;
     ret (text_result (Json.stringify comments 2)))
    (fun error =>
       ret (error_result ("Error fetching post comments: " ++ Js.error_to_string error))).

Definition hide_comment (commentId : string) : M ToolResult :=
  try_catch
    (await success <- RedditAPIClient.hideComment redditClient commentId ;;
     ret {| content :=
              [ {| type := "text";
                   text := if success
                           then "Successfully hid comment " ++ commentId
                           else "Failed to hide comment " ++ commentId |} ];
            isError := Some (negb success) |})
    (fun error =>
       ret (error_result ("Error hiding comment: " ++ Js.error_to_string error))).

Definition reply_to_comment (commentId text : string) : M ToolResult :=
  try_catch
    (await replyId <- RedditAPIClient.replyToComment redditClient commentId text ;;
     ret {| content :=
              [ {| type := "text";
                   text := if Json.truthy (Some replyId)
                           then "Successfully replied to comment " ++ commentId
                                ++ ". Reply ID: " ++ Json.to_string replyId
                           else "Failed to reply to comment " ++ commentId |} ];
            isError := Some (negb (Json.truthy (Some replyId))) |})
    (fun error =>
       ret (error_result ("Error replying to comment: " ++ Js.error_to_string error))).

Definition post_comment (postId text : string) : M ToolResult :=
  try_catch
    (await commentId <- RedditAPIClient.postComment redditClient postId text ;;
     ret {| content :=
              [ {| type := "text";
                   text := if Json.truthy (Some commentId)
                           then "Successfully posted comment on post " ++ postId
                                ++ ". Comment ID: " ++ Json.to_string commentId
                           else "Failed to post comment on post " ++ postId |} ];
            isError := Some (negb (Json.truthy (Some commentId))) |})
    (fun error =>
       ret (error_result ("Error posting comment: " ++ Js.error_to_string error))).

Definition get_hot_posts (subreddit : string) (limit : option Z)
    : M ToolResult :=
  let limit := default_to limit 25 in
  try_catch
    (await posts <- RedditAPIClient.getHotPosts redditClient subreddit (Some limit) ;;
     ret (text_result (Json.stringify posts 2)))
    (fun error =>
       ret (error_result ("Error fetching hot posts: " ++ Js.error_to_string error))).

Definition get_new_posts (subreddit : string) (limit : option Z)
    : M ToolResult :=
  let limit := default_to limit 25 in
  try_catch
    (await posts <- RedditAPIClient.getNewPosts redditClient subreddit (Some limit) ;;
     ret (text_result (Json.stringify posts 2)))
    (fun error =>
       ret (error_result ("Error fetching new posts: " ++ Js.error_to_string error))).

Definition get_rising_posts (subreddit : string) (limit : option Z)
    : M ToolResult :=
  let limit := default_to limit 25 in
  try_catch
    (await posts <- RedditAPIClient.getRisingPosts redditClient subreddit (Some limit) ;;
     ret (text_result (Json.stringify posts 2)))
    (fun error =>
       ret (error_result ("Error fetching rising posts: " ++ Js.error_to_string error))).

(** The callback registered under the name of the call, on its arguments. *)
Definition run_handler (call : ToolCall) : M ToolResult :=
  match call with
  | Call_get_user_posts username limit => get_user_posts username limit
  | Call_get_user_comments username limit => get_user_comments username limit
  | Call_get_post_comments postId subreddit => get_post_comments postId subreddit
  | Call_hide_comment commentId => hide_comment commentId
  | Call_reply_to_comment commentId text => reply_to_comment commentId text
  | Call_post_comment postId text => post_comment postId text
  | Call_get_hot_posts subreddit limit => get_hot_posts subreddit limit
  | Call_get_new_posts subreddit limit => get_new_posts subreddit limit
  | Call_get_rising_posts subreddit limit => get_rising_posts subreddit limit
  end.

(** A tool invocation: the arguments are parsed by the input schema, and
    the callback runs on the parsed arguments.  [None] stands for a call
    the schema refuses, which never reaches the callback. *)
Definition call_tool (call : ToolCall) : M (option ToolResult) :=
  match parse_arguments call with
  | Some parsed =>
      await result <- run_handler parsed ;;
      ret (Some result)
  | None => ret None
  end.

End createServer.

(** ** The data shapes of the backend *)

Record RedditPost : Type := mkPost {
  post_id : string;
  title : string;
  selftext : string;
  author : string;
  subreddit : string;
  created_utc : Z;
  score : Z;
  num_comments : Z;
  permalink : string;
  post_url : string
}.

(** A post as the JSON object the backend sends. *)
Definition json_of_post (p : RedditPost) : Json.t :=
  Json.JObj
    [("id", Json.JStr (post_id p));
     ("title", Json.JStr (title p));
     ("selftext", Json.JStr (selftext p));
     ("author", Json.JStr (author p));
     ("subreddit", Json.JStr (subreddit p));
     ("created_utc", Json.JNum (created_utc p));
     ("score", Json.JNum (score p));
     ("num_comments", Json.JNum (num_comments p));
     ("permalink", Json.JStr (permalink p));
     ("url", Json.JStr (post_url p))].

(** ** Vocabulary of the statements *)

(** How axios settles [req] when it is the next request sent in [w]. *)
Definition answer (w : World) (req : Http.Request) : Completion Axios.Response :=
  Axios.settle (backend w (sent w) req).

(** A backend that gives every request the same response. *)
Definition responding (status : Z) (body : Json.t) : Http.Backend :=
  fun _ _ => Http.Responded status body.

(** The limit argument of a call of a limit-taking tool. *)
Definition call_limit (call : ToolCall) : option (option Z) :=
  match call with
  | Call_get_user_posts _ limit
  | Call_get_user_comments _ limit
  | Call_get_hot_posts _ limit
  | Call_get_new_posts _ limit
  | Call_get_rising_posts _ limit => Some limit
  | _ => None
  end.

(** The limit a request carries: a query parameter of a GET, a member of
    the JSON body of a POST. *)
Definition carried_limit (req : Http.Request) : option Json.t :=
  match Http.method req with
  | Http.GET =>
      match assoc "limit" (Http.params req) with
      | Some v => v
      | None => None
      end
  | Http.POST =>
      match Http.data req with
      | Some body => Json.own_field body "limit"
      | None => None
      end
  end.

Definition is_get (call : ToolCall) : bool :=
  match call with
  | Call_hide_comment _ | Call_reply_to_comment _ _ | Call_post_comment _ _ => false
  | _ => true
  end.

Definition is_listing (call : ToolCall) : bool :=
  match call with
  | Call_get_hot_posts _ _ | Call_get_new_posts _ _ | Call_get_rising_posts _ _ => true
  | _ => false
  end.

(** The operation table of the specification: method and path. *)
Definition documented_endpoint (call : ToolCall) : Http.Method * string :=
  match call with
  | Call_get_user_posts _ _ => (Http.GET, "/api/reddit/mcp/user-posts")
  | Call_get_user_comments _ _ => (Http.GET, "/api/reddit/mcp/user-comments")
  | Call_get_post_comments _ _ => (Http.GET, "/api/reddit/mcp/post-comments")
  | Call_hide_comment _ => (Http.POST, "/api/reddit/mcp/hide-comment")
  | Call_reply_to_comment _ _ => (Http.POST, "/api/reddit/mcp/reply-comment")
  | Call_post_comment _ _ => (Http.POST, "/api/reddit/mcp/post-comment")
  | Call_get_hot_posts _ _ => (Http.POST, "/api/reddit/mcp/hot-posts")
  | Call_get_new_posts _ _ => (Http.POST, "/api/reddit/mcp/new-posts")
  | Call_get_rising_posts _ _ => (Http.POST, "/api/reddit/mcp/rising-posts")
  end.

(** The operation table of the specification: the names of the query
    parameters or of the members of the body. *)
Definition documented_fields (call : ToolCall) : list string :=
  match call with
  | Call_get_user_posts _ _ | Call_get_user_comments _ _ => ["username"; "limit"]
  | Call_get_post_comments _ _ => ["postId"; "subreddit"]
  | Call_hide_comment _ => ["commentId"]
  | Call_reply_to_comment _ _ => ["commentId"; "text"]
  | Call_post_comment _ _ => ["postId"; "text"]
  | _ => ["subreddit"; "limit"]
  end.

(** Where a request carries its arguments. *)
Definition carries_fields (req : Http.Request) (fields : list string) : Prop :=
  match Http.method req with
  | Http.GET => Http.data req = None /\ map fst (Http.params req) = fields
  | Http.POST =>
      Http.params req = [] /\
      exists members,
        Http.data req = Some (Json.JObj members) /\ map fst members = fields
  end.

(** A request as the operation table documents it for [call]: the fixed
    base URL, the method and the path of the tool, the arguments in the
    query or in the body, and the bearer header made of the configured key. *)
Definition documented_request (config : Config) (call : ToolCall)
    (req : Http.Request) : Prop :=
  Http.baseURL req = "https://reddable.vercel.app" /\
  (Http.method req, Http.url req) = documented_endpoint call /\
  carries_fields req (documented_fields call) /\
  assoc "Authorization" (Http.headers req)
    = Some ("Bearer " ++ REDDABLE_API_KEY config).

(** The phrase that opens the error text of each get tool. *)
Definition failure_phrase (call : ToolCall) : string :=
  match call with
  | Call_get_user_posts _ _ => "Error fetching user posts: "
  | Call_get_user_comments _ _ => "Error fetching user comments: "
  | Call_get_post_comments _ _ => "Error fetching post comments: "
  | Call_get_hot_posts _ _ => "Error fetching hot posts: "
  | Call_get_new_posts _ _ => "Error fetching new posts: "
  | Call_get_rising_posts _ _ => "Error fetching rising posts: "
  | _ => ""
  end.

(** What it is for a client method and the callback over it to swallow a
    failed request: the method never raises; when the one request of the
    run fails, the method returns [sentinel] and the callback returns an
    error result with the text [message], the same whatever the error. *)
Definition swallows {A : Type} (method : M A) (sentinel : A)
    (callback : M ToolResult) (message : string) (w : World) : Prop :=
  (exists a, fst (method w) = Normal a) /\
  exists req,
    sent (snd (callback w)) = (sent w ++ [req])%list /\
    forall e,
      answer w req = Throw e ->
      fst (method w) = Normal sentinel /\
      fst (callback w) = Normal (error_result message).

(** Worlds and a configuration for the examples. *)
Definition example_config : Config := mkConfig "secret".

Definition refused_world : World :=
  mkWorld (fun _ _ => Http.Failed (Js.mkError "Error" "connect ECONNREFUSED")) [] [].

(** The three tools that read with a GET and hand the response data on. *)
Definition is_plain_get (call : ToolCall) : bool :=
  match call with
  | Call_get_user_posts _ _ | Call_get_user_comments _ _
  | Call_get_post_comments _ _ => true
  | _ => false
  end.

(** The arguments of a call under the names its callback gives them, as
    values: a string as a JSON string, a limit as a number (25 when left
    out), an optional string left out as [undefined]. *)
Definition call_args (call : ToolCall) : list (string * option Json.t) :=
  match call with
  | Call_get_user_posts username limit
  | Call_get_user_comments username limit =>
      [("username", option_map Json.JStr username);
       ("limit", Some (Json.JNum (default_to limit 25)))]
  | Call_get_post_comments postId subreddit =>
      [("postId", Some (Json.JStr postId));
       ("subreddit", option_map Json.JStr subreddit)]
  | Call_hide_comment commentId => [("commentId", Some (Json.JStr commentId))]
  | Call_reply_to_comment commentId text =>
      [("commentId", Some (Json.JStr commentId)); ("text", Some (Json.JStr text))]
  | Call_post_comment postId text =>
      [("postId", Some (Json.JStr postId)); ("text", Some (Json.JStr text))]
  | Call_get_hot_posts subreddit limit
  | Call_get_new_posts subreddit limit
  | Call_get_rising_posts subreddit limit =>
      [("subreddit", Some (Json.JStr subreddit));
       ("limit", Some (Json.JNum (default_to limit 25)))]
  end.

(** The named values a request carries: the query parameters of a GET, the
    members of the JSON body of a POST. *)
Definition request_args (req : Http.Request) : list (string * option Json.t) :=
  match Http.method req with
  | Http.GET => Http.params req
  | Http.POST =>
      match Http.data req with
      | Some (Json.JObj members) =>
          map (fun member : string * Json.t => (fst member, Some (snd member))) members
      | _ => []
      end
  end.

(** The label under which a client method writes a caught error to the
    console; the three GET methods catch nothing. *)
Definition console_label (call : ToolCall) : option string :=
  match call with
  | Call_hide_comment _ => Some "Failed to hide comment:"
  | Call_reply_to_comment _ _ => Some "Failed to reply to comment:"
  | Call_post_comment _ _ => Some "Failed to post comment:"
  | Call_get_hot_posts _ _ => Some "Failed to get hot posts:"
  | Call_get_new_posts _ _ => Some "Failed to get new posts:"
  | Call_get_rising_posts _ _ => Some "Failed to get rising posts:"
  | _ => None
  end.

(** A result of one text block. *)
Definition one_text (s : string) (flag : option bool) : ToolResult :=
  {| content := [ {| type := "text"; text := s |} ]; isError := flag |}.




(** The same call with another limit argument; a call of a tool without a
    limit is left as it is. *)
Definition set_limit (call : ToolCall) (limit : option Z) : ToolCall :=
  match call with
  | Call_get_user_posts username _ => Call_get_user_posts username limit
  | Call_get_user_comments username _ => Call_get_user_comments username limit
  | Call_get_hot_posts subreddit _ => Call_get_hot_posts subreddit limit
  | Call_get_new_posts subreddit _ => Call_get_new_posts subreddit limit
  | Call_get_rising_posts subreddit _ => Call_get_rising_posts subreddit limit
  | _ => call
  end.

(** Two tool calls one after the other, as two awaited callbacks. *)
Definition run_two (config : Config) (first second : ToolCall)
    : M (ToolResult * ToolResult) :=
  await r1 <- run_handler config first ;;
  await r2 <- run_handler config second ;;
  ret (r1, r2).

(** ** Lemmas on the monad and on strings *)

Ltac unfold_async :=
  cbv [get_user_posts get_user_comments get_post_comments hide_comment
       reply_to_comment post_comment get_hot_posts get_new_posts
       get_rising_posts run_handler
       RedditAPIClient.getUserPosts RedditAPIClient.getUserComments
       RedditAPIClient.getPostComments RedditAPIClient.hideComment
       RedditAPIClient.replyToComment RedditAPIClient.postComment
       RedditAPIClient.getHotPosts RedditAPIClient.getNewPosts
       RedditAPIClient.getRisingPosts
       Axios.get Axios.post Axios.request
       bind ret throw try_catch console_error get_prop default_to].

(** Case analysis on how the one pending request settles. *)
Ltac settle_cases w :=
  match goal with
  | |- context [Axios.settle (backend w (sent w) ?r)] =>
      let st := fresh "st" in
      let body := fresh "body" in
      let e := fresh "e" in
      let Hst := fresh "Hst" in
      destruct (backend w (sent w) r) as [st body | e];
      cbv [Axios.settle];
      [ destruct (Axios.validateStatus st) eqn:Hst | ]
  end.

Lemma contains_prefix (a b : string) : Str.Contains (a ++ b) a.
Proof. exists "", b. reflexivity. Qed.

Lemma append_empty_r (a : string) : a ++ "" = a.
Proof. induction a as [| c a IH]; simpl; [reflexivity | now rewrite IH]. Qed.

Lemma append_assoc (a b c : string) : (a ++ b) ++ c = a ++ (b ++ c).
Proof. induction a as [| x a IH]; simpl; [reflexivity | now rewrite IH]. Qed.

Lemma contains_suffix (a b : string) : Str.Contains (a ++ b) b.
Proof. exists a, "". now rewrite append_empty_r. Qed.

Lemma validate_2xx (status : Z) :
  200 <= status < 300 -> Axios.validateStatus status = true.
Proof. unfold Axios.validateStatus. intros H. apply andb_true_iff. lia. Qed.

Lemma limit_schema_in_range (l : Z) :
  1 <= l <= 100 -> limit_schema (Some l) = Some l.
Proof.
  intros H. unfold limit_schema.
  replace ((1 <=? l) && (l <=? 100)) with true; [reflexivity |].
  symmetry. apply andb_true_iff. lia.
Qed.

Lemma prefix_split (needle hay : string) :
  String.prefix needle hay = true -> exists rest, hay = needle ++ rest.
Proof.
  revert hay. induction needle as [| c needle IH]; intros hay H.
  - exists hay. reflexivity.
  - destruct hay as [| d hay]; simpl in H; [ discriminate | ].
    destruct (Ascii.ascii_dec c d) as [<- | Hneq]; [ | discriminate ].
    destruct (IH hay H) as [rest ->]. exists rest. reflexivity.
Qed.

(** [Str.includes] is sound for [Str.Contains]. *)
Lemma includes_contains (hay needle : string) :
  Str.includes hay needle = true -> Str.Contains hay needle.
Proof.
  induction hay as [| c hay IH]; cbn [Str.includes]; intros H;
    apply orb_true_iff in H; destruct H as [H | H].
  - destruct (prefix_split _ _ H) as [rest ->]. exists "", rest. reflexivity.
  - discriminate.
  - destruct (prefix_split _ _ H) as [rest ->]. exists "", rest. reflexivity.
  - destruct (IH H) as [before [after ->]].
    exists (String c before), after. reflexivity.
Qed.

(** [JSON.stringify] with indentation 2 on an array of one object. *)
Example stringify_layout :
  Json.stringify
    (Json.JArr [Json.JObj [("id", Json.JStr "p1"); ("score", Json.JNum (-3));
                           ("tags", Json.JArr [])]]) 2
  = "[" ++ Str.newline
    ++ "  {" ++ Str.newline
    ++ "    " ++ Json.quote "id" ++ ": " ++ Json.quote "p1" ++ "," ++ Str.newline
    ++ "    " ++ Json.quote "score" ++ ": -3," ++ Str.newline
    ++ "    " ++ Json.quote "tags" ++ ": []" ++ Str.newline
    ++ "  }" ++ Str.newline
    ++ "]".
Proof. reflexivity. Qed.

(** Quoting escapes the quote, the backslash and the control characters. *)
Example quote_escapes :
  Json.escape (String (ascii_of_nat 34)
                 (String (ascii_of_nat 10) (String (ascii_of_nat 31) "a\b")))
  = "\" ++ Str.dquote ++ "\n\u001fa\\b".
Proof. reflexivity. Qed.

(** A limit outside [1,100] is refused by the schema: the callback does not
    run and nothing is sent. *)
Example out_of_range_limit_refused :
  call_tool example_config (Call_get_user_posts None (Some 0)) refused_world
  = (Normal None, refused_world).
Proof. reflexivity. Qed.

(** ** Theorems *)

Lemma run_handler_request (config : Config) (call : ToolCall) (w : World) :
  exists req,
    sent (snd (run_handler config call w)) = (sent w ++ [req])%list /\
    documented_request config call req.
Proof.
  destruct call; unfold_async; eexists;
    (split; [ settle_cases w;
              [ try (destruct body; simpl; reflexivity) | .. ];
              simpl; reflexivity
            | cbv [documented_request]; cbn; repeat split; eauto ]).
Qed.

Lemma parsed_same_tool (config : Config) (call parsed : ToolCall)
    (req : Http.Request) :
  parse_arguments call = Some parsed ->
  documented_request config parsed req -> documented_request config call req.
Proof.
  intros Hparse Hreq.
  destruct call; simpl in Hparse;
    try (injection Hparse as <-; exact Hreq);
    destruct (limit_schema limit); simpl in Hparse; try discriminate;
    injection Hparse as <-; exact Hreq.
Qed.

Lemma call_tool_accepted (config : Config) (call parsed : ToolCall) (w : World) :
  parse_arguments call = Some parsed ->
  sent (snd (call_tool config call w)) = sent (snd (run_handler config parsed w)).
Proof.
  intros Hparse. unfold call_tool. rewrite Hparse. unfold bind, ret.
  destruct (run_handler config parsed w) as [[result | e] w']; reflexivity.
Qed.

(** C5.  Every run of a registered callback sends exactly one request: to
    the fixed base URL, with the method and the path of the operation table,
    its arguments in the query of a GET or in the JSON body of a POST, and
    with the header [Authorization: Bearer <key>] built from the configured
    key.  So does every tool invocation whose arguments the input schema
    accepts. *)
Theorem one_request_per_invocation (config : Config) (call : ToolCall) (w : World) :
  (exists req,
     sent (snd (run_handler config call w)) = (sent w ++ [req])%list /\
     documented_request config call req) /\
  (forall parsed,
     parse_arguments call = Some parsed ->
     exists req,
       sent (snd (call_tool config call w)) = (sent w ++ [req])%list /\
       documented_request config call req).
Proof.
  split; [ apply run_handler_request | ].
  intros parsed Hparse.
  destruct (run_handler_request config parsed w) as [req [Hsent Hreq]].
  exists req. split.
  - rewrite (call_tool_accepted config call parsed w Hparse). exact Hsent.
  - exact (parsed_same_tool config call parsed req Hparse Hreq).
Qed.

Lemma one_request_per_invocation_witness :
  exists req,
    sent (snd (call_tool example_config (Call_hide_comment "abc123") refused_world))
      = [req] /\
    req = {| Http.method := Http.POST;
             Http.baseURL := "https://reddable.vercel.app";
             Http.url := "/api/reddit/mcp/hide-comment";
             Http.headers := [("Authorization", "Bearer secret");
                              ("Content-Type", "application/json")];
             Http.params := [];
             Http.data := Some (Json.JObj [("commentId", Json.JStr "abc123")]) |}.
Proof.
  destruct (proj2 (one_request_per_invocation example_config
                     (Call_hide_comment "abc123") refused_world)
              (Call_hide_comment "abc123") eq_refl)
    as [req [Hsent _]].
  exists req. split; [ exact Hsent | ].
  vm_compute in Hsent. injection Hsent as <-. reflexivity.
Defined.

(** C1.  A call of a limit-taking tool whose limit lies in [1,100] sends
    one request that carries exactly that limit; a call that leaves the
    limit out sends one request that carries 25. *)
Theorem limit_forwarded (config : Config) (call : ToolCall)
    (limit : option Z) (w : World) :
  call_limit call = Some limit ->
  match limit with
  | Some l => 1 <= l <= 100
  | None => True
  end ->
  exists req,
    sent (snd (call_tool config call w)) = (sent w ++ [req])%list /\
    carried_limit req
      = Some (Json.JNum match limit with Some l => l | None => 25 end) /\
    exists result, fst (call_tool config call w) = Normal (Some result).
Proof.
  intros Hcall Hrange.
  destruct call; simpl in Hcall; try discriminate;
    injection Hcall as ->;
    unfold call_tool, parse_arguments;
    (destruct limit as [l |];
     [ rewrite (limit_schema_in_range l Hrange) | ]);
    cbn [limit_schema option_map]; unfold_async;
    eexists;
    (split;
     [ settle_cases w;
       [ try (destruct body; simpl; reflexivity) | .. ];
       simpl; reflexivity
     | split;
       [ reflexivity
       | settle_cases w;
         [ try (destruct body; simpl; eexists; reflexivity) | .. ];
         simpl; eexists; reflexivity ] ]).
Qed.

Lemma limit_forwarded_witness :
  (1 <= 5 <= 100) /\
  exists req,
    sent (snd (call_tool example_config (Call_get_hot_posts "programming" (Some 5))
                 (mkWorld (responding 200 (Json.JObj [("posts", Json.JArr [])])) [] [])))
      = ([] ++ [req])%list /\
    carried_limit req = Some (Json.JNum 5) /\
    exists result,
      fst (call_tool example_config (Call_get_hot_posts "programming" (Some 5))
             (mkWorld (responding 200 (Json.JObj [("posts", Json.JArr [])])) [] []))
        = Normal (Some result).
Proof.
  split; [ lia | ].
  apply (limit_forwarded example_config (Call_get_hot_posts "programming" (Some 5))
           (Some 5)
           (mkWorld (responding 200 (Json.JObj [("posts", Json.JArr [])])) [] []));
    [ reflexivity | simpl; lia ].
Defined.

(** C2.  A get tool whose request fails: the callback sends that one
    request and no other, and returns an error result ([isError: true])
    whose text is the failure phrase of the tool followed by the
    stringified error. *)
Theorem get_failure_surfaces (config : Config) (call : ToolCall) (w : World) :
  is_get call = true ->
  exists req,
    sent (snd (run_handler config call w)) = (sent w ++ [req])%list /\
    forall e,
      answer w req = Throw e ->
      fst (run_handler config call w)
        = Normal (error_result (failure_phrase call ++ Js.error_to_string e)) /\
      Str.Contains (failure_phrase call ++ Js.error_to_string e) (failure_phrase call) /\
      Str.Contains (failure_phrase call ++ Js.error_to_string e) (Js.error_to_string e).
Proof.
  intros Hget.
  destruct call; simpl in Hget; try discriminate; clear Hget;
    unfold_async; eexists;
    (split;
     [ settle_cases w;
       [ try (destruct body; simpl; reflexivity) | .. ];
       simpl; reflexivity
     | intros err Herr;
       split; [ | split; [ apply contains_prefix | apply contains_suffix ] ];
       unfold answer in Herr; simpl in Herr; simpl; rewrite Herr; reflexivity ]).
Qed.

Lemma get_failure_surfaces_witness :
  is_get (Call_get_post_comments "t3_abc" None) = true /\
  fst (run_handler example_config (Call_get_post_comments "t3_abc" None) refused_world)
    = Normal (error_result "Error fetching post comments: Error: connect ECONNREFUSED") /\
  List.length (sent (snd (run_handler example_config (Call_get_post_comments "t3_abc" None)
                       refused_world))) = 1%nat.
Proof.
  split; [ reflexivity | ].
  destruct (get_failure_surfaces example_config
              (Call_get_post_comments "t3_abc" None) refused_world eq_refl)
    as [req [Hsent Hfail]].
  split.
  - vm_compute in Hsent. injection Hsent as <-.
    exact (proj1 (Hfail _ eq_refl)).
  - rewrite Hsent. reflexivity.
Defined.

(** C3.  [hideComment], [replyToComment] and [postComment] never raise: a
    failed request is caught in the client and becomes [false] or [null],
    and the callback turns that into an error result whose text names the
    id only and is the same for every error. *)
Theorem mutation_failure_swallowed (config : Config) (w : World)
    (commentId postId text : string) :
  swallows (RedditAPIClient.hideComment (redditClient config) commentId) false
    (hide_comment config commentId)
    ("Failed to hide comment " ++ commentId) w /\
  swallows (RedditAPIClient.replyToComment (redditClient config) commentId text)
    Json.JNull
    (reply_to_comment config commentId text)
    ("Failed to reply to comment " ++ commentId) w /\
  swallows (RedditAPIClient.postComment (redditClient config) postId text)
    Json.JNull
    (post_comment config postId text)
    ("Failed to post comment on post " ++ postId) w.
Proof.
  unfold swallows. repeat split.
  all: unfold_async.
  all: try (settle_cases w;
            [ try (destruct body; simpl; eexists; reflexivity) | .. ];
            simpl; eexists; reflexivity).
  all: eexists;
    (split;
     [ settle_cases w;
       [ try (destruct body; simpl; reflexivity) | .. ];
       simpl; reflexivity
     | intros err Herr; unfold answer in Herr; simpl in Herr; simpl;
       rewrite Herr; split; reflexivity ]).
Qed.

Lemma mutation_failure_swallowed_witness :
  Str.includes "Failed to hide comment abc123" "Error: connect ECONNREFUSED" = false /\
  fst (RedditAPIClient.hideComment (redditClient example_config) "abc123" refused_world)
    = Normal false /\
  fst (hide_comment example_config "abc123" refused_world)
    = Normal (error_result "Failed to hide comment abc123").
Proof.
  split; [ reflexivity | ].
  destruct (mutation_failure_swallowed example_config refused_world
              "abc123" "t3_abc" "hello")
    as [[_ [req [Hsent Hfail]]] _].
  vm_compute in Hsent. injection Hsent as <-.
  exact (Hfail _ eq_refl).
Defined.

(** C4.  [hide_comment("abc123")]: when the backend responds 200 the result
    is the text [Successfully hid comment abc123] with [isError: false];
    when it responds 500, whatever the body, the result is the text
    [Failed to hide comment abc123] with [isError: true], and that text does
    not include the error axios raised. *)
Theorem hide_comment_abc123 (config : Config) (body : Json.t)
    (log : list Http.Request) (out : list (string * Js.Error)) :
  fst (call_tool config (Call_hide_comment "abc123")
         (mkWorld (responding 200 body) log out))
    = Normal (Some {| content := [ {| type := "text";
                                      text := "Successfully hid comment abc123" |} ];
                      isError := Some false |}) /\
  fst (call_tool config (Call_hide_comment "abc123")
         (mkWorld (responding 500 body) log out))
    = Normal (Some {| content := [ {| type := "text";
                                      text := "Failed to hide comment abc123" |} ];
                      isError := Some true |}) /\
  Str.includes "Failed to hide comment abc123"
    (Js.error_to_string (Axios.status_error 500)) = false.
Proof.
  split; [ reflexivity | split; [ reflexivity | vm_compute; reflexivity ] ].
Qed.

(** C6.  [get_user_posts("alice", 10)] against a backend that returns a list
    of three posts: the result has one text block and no [isError]; the text
    is [JSON.stringify] of the list with indentation 2, that is the three
    serialized posts, each on a line of its own indented by two spaces,
    separated by commas, between brackets. *)
Theorem get_user_posts_alice (config : Config) (p1 p2 p3 : Json.t)
    (log : list Http.Request) (out : list (string * Js.Error)) :
  fst (call_tool config (Call_get_user_posts (Some "alice") (Some 10))
         (mkWorld (responding 200 (Json.JArr [p1; p2; p3])) log out))
    = Normal (Some {| content :=
                        [ {| type := "text";
                             text := Json.stringify (Json.JArr [p1; p2; p3]) 2 |} ];
                      isError := None |}) /\
  Json.stringify (Json.JArr [p1; p2; p3]) 2
    = "[" ++ Str.newline
      ++ "  " ++ Json.serialize "  " "  " p1 ++ "," ++ Str.newline
      ++ "  " ++ Json.serialize "  " "  " p2 ++ "," ++ Str.newline
      ++ "  " ++ Json.serialize "  " "  " p3 ++ Str.newline
      ++ "]".
Proof.
  split; [ reflexivity | ].
  unfold Json.stringify. simpl.
  repeat (rewrite append_assoc; simpl). reflexivity.
Qed.

(** C7.  [reply_to_comment("c1", "hello")] against a backend that responds
    successfully with the body [{replyId: "r9"}]: the text of the result
    contains [c1] and [r9], and [isError] is [false]. *)
Theorem reply_to_comment_c1 (config : Config) (status : Z)
    (log : list Http.Request) (out : list (string * Js.Error)) :
  200 <= status < 300 ->
  exists txt,
    fst (call_tool config (Call_reply_to_comment "c1" "hello")
           (mkWorld (responding status (Json.JObj [("replyId", Json.JStr "r9")]))
              log out))
      = Normal (Some {| content := [ {| type := "text"; text := txt |} ];
                        isError := Some false |}) /\
    txt = "Successfully replied to comment c1. Reply ID: r9" /\
    Str.includes txt "c1" = true /\
    Str.includes txt "r9" = true.
Proof.
  intros H2xx. eexists. split; [ | split; [ reflexivity | split; reflexivity ] ].
  unfold call_tool, parse_arguments. unfold_async.
  cbv [fst backend sent responding Axios.settle].
  rewrite (validate_2xx status H2xx). reflexivity.
Qed.

Lemma reply_to_comment_c1_witness :
  (200 <= 200 < 300) /\
  exists txt,
    fst (call_tool example_config (Call_reply_to_comment "c1" "hello")
           (mkWorld (responding 200 (Json.JObj [("replyId", Json.JStr "r9")])) [] []))
      = Normal (Some {| content := [ {| type := "text"; text := txt |} ];
                        isError := Some false |}) /\
    txt = "Successfully replied to comment c1. Reply ID: r9" /\
    Str.includes txt "c1" = true /\
    Str.includes txt "r9" = true.
Proof.
  split; [ lia | ].
  apply (reply_to_comment_c1 example_config 200 [] []). lia.
Defined.

(** C8.  [get_hot_posts("programming", 5)] against a backend that responds
    successfully with the body [{posts: []}]: the text of the result is the
    serialization of the empty array, and [isError] is left out. *)
Theorem get_hot_posts_empty (config : Config) (status : Z)
    (log : list Http.Request) (out : list (string * Js.Error)) :
  200 <= status < 300 ->
  fst (call_tool config (Call_get_hot_posts "programming" (Some 5))
         (mkWorld (responding status (Json.JObj [("posts", Json.JArr [])])) log out))
    = Normal (Some {| content := [ {| type := "text"; text := "[]" |} ];
                      isError := None |}) /\
  Json.stringify (Json.JArr []) 2 = "[]".
Proof.
  intros H2xx. split; [ | reflexivity ].
  unfold call_tool, parse_arguments. cbn [limit_schema Z.leb Z.compare
    Pos.compare Pos.compare_cont andb option_map]. unfold_async.
  cbv [fst backend sent responding Axios.settle].
  rewrite (validate_2xx status H2xx). reflexivity.
Qed.

Lemma get_hot_posts_empty_witness :
  (200 <= 200 < 300) /\
  fst (call_tool example_config (Call_get_hot_posts "programming" (Some 5))
         (mkWorld (responding 200 (Json.JObj [("posts", Json.JArr [])])) [] []))
    = Normal (Some {| content := [ {| type := "text"; text := "[]" |} ];
                      isError := None |}) /\
  Json.stringify (Json.JArr []) 2 = "[]".
Proof.
  split; [ lia | ].
  apply (get_hot_posts_empty example_config 200 [] []). lia.
Defined.

Lemma or_else_falsy (value : option Json.t) (fallback : Json.t) :
  Json.truthy value = false -> or_else value fallback = fallback.
Proof.
  intros H. unfold or_else. destruct value as [v |]; [ | reflexivity ].
  now rewrite H.
Qed.

(** C9, as the code has it.  A listing tool whose request is answered with
    a 2xx status and a body other than [null] whose [posts] is missing or
    falsy returns the serialization of the empty list, with [isError] left
    out. *)
Theorem listing_without_posts (config : Config) (call : ToolCall) (w : World) :
  is_listing call = true ->
  exists req,
    sent (snd (run_handler config call w)) = (sent w ++ [req])%list /\
    forall status body,
      backend w (sent w) req = Http.Responded status body ->
      200 <= status < 300 ->
      body <> Json.JNull ->
      Json.truthy (Json.own_field body "posts") = false ->
      fst (run_handler config call w)
        = Normal {| content := [ {| type := "text"; text := "[]" |} ];
                    isError := None |}.
Proof.
  intros Hlisting.
  destruct call; simpl in Hlisting; try discriminate; clear Hlisting;
    unfold_async; eexists;
    (split;
     [ settle_cases w;
       [ try (destruct body; simpl; reflexivity) | .. ];
       simpl; reflexivity
     | intros status body Hresp H2xx Hnull Hfalsy;
       simpl in Hresp; simpl; rewrite Hresp;
       cbv [Axios.settle]; rewrite (validate_2xx status H2xx);
       destruct body; try contradiction;
       cbn [Axios.data fst]; rewrite (or_else_falsy _ _ Hfalsy);
       reflexivity ]).
Qed.

Lemma listing_without_posts_witness :
  is_listing (Call_get_new_posts "rust" None) = true /\
  fst (run_handler example_config (Call_get_new_posts "rust" None)
         (mkWorld (responding 200 (Json.JObj [("count", Json.JNum 0)])) [] []))
    = Normal {| content := [ {| type := "text"; text := "[]" |} ];
                isError := None |}.
Proof.
  split; [ reflexivity | ].
  destruct (listing_without_posts example_config (Call_get_new_posts "rust" None)
              (mkWorld (responding 200 (Json.JObj [("count", Json.JNum 0)])) [] [])
              eq_refl)
    as [req [Hsent Hok]].
  vm_compute in Hsent. injection Hsent as <-.
  apply (Hok 200 (Json.JObj [("count", Json.JNum 0)]));
    [ reflexivity | lia | discriminate | reflexivity ].
Defined.

(** C9, as stated, fails on the body [null]: it is a 2xx JSON body without
    a [posts] field, reading [posts] of it throws, and the tool returns an
    error result. *)
Lemma listing_null_body :
  Json.own_field Json.JNull "posts" = None /\
  fst (run_handler example_config (Call_get_hot_posts "programming" (Some 5))
         (mkWorld (responding 200 Json.JNull) [] []))
    = Normal {| content :=
                  [ {| type := "text";
                       text := "Error fetching hot posts: TypeError: Cannot read properties of null (reading 'posts')" |} ];
                isError := Some true |} /\
  fst (run_handler example_config (Call_get_hot_posts "programming" (Some 5))
         (mkWorld (responding 200 Json.JNull) [] []))
    <> Normal {| content := [ {| type := "text"; text := "[]" |} ];
                 isError := None |}.
Proof.
  split; [ reflexivity | split; [ reflexivity | ] ].
  vm_compute. discriminate.
Qed.

(** C10.  [reply_to_comment] and [post_comment] whose request is answered
    with a 2xx status and a body whose [replyId] (resp. [commentId]) is
    falsy return an error result with the failure text; a missing field,
    [null] and the empty string are falsy. *)
Theorem falsy_id_reported_as_failure (config : Config) (w : World)
    (commentId postId text : string) :
  (exists req,
     sent (snd (reply_to_comment config commentId text w)) = (sent w ++ [req])%list /\
     forall status body,
       backend w (sent w) req = Http.Responded status body ->
       200 <= status < 300 ->
       Json.truthy (Json.own_field body "replyId") = false ->
       fst (reply_to_comment config commentId text w)
         = Normal {| content := [ {| type := "text";
                                     text := "Failed to reply to comment " ++ commentId |} ];
                     isError := Some true |}) /\
  (exists req,
     sent (snd (post_comment config postId text w)) = (sent w ++ [req])%list /\
     forall status body,
       backend w (sent w) req = Http.Responded status body ->
       200 <= status < 300 ->
       Json.truthy (Json.own_field body "commentId") = false ->
       fst (post_comment config postId text w)
         = Normal {| content := [ {| type := "text";
                                     text := "Failed to post comment on post " ++ postId |} ];
                     isError := Some true |}) /\
  Json.truthy None = false /\
  Json.truthy (Some Json.JNull) = false /\
  Json.truthy (Some (Json.JStr "")) = false.
Proof.
  split; [ | split; [ | repeat split ] ];
    unfold_async; eexists;
    (split;
     [ settle_cases w;
       [ try (destruct body; simpl; reflexivity) | .. ];
       simpl; reflexivity
     | intros status body Hresp H2xx Hfalsy;
       simpl in Hresp; simpl; rewrite Hresp;
       cbv [Axios.settle]; rewrite (validate_2xx status H2xx);
       destruct body; cbn [Axios.data fst];
       try rewrite (or_else_falsy _ _ Hfalsy);
       reflexivity ]).
Qed.

Lemma falsy_id_reported_as_failure_witness :
  fst (reply_to_comment example_config "c1" "hello"
         (mkWorld (responding 200 (Json.JObj [("replyId", Json.JStr "")])) [] []))
    = Normal {| content := [ {| type := "text";
                                text := "Failed to reply to comment c1" |} ];
                isError := Some true |}.
Proof.
  destruct (falsy_id_reported_as_failure example_config
              (mkWorld (responding 200 (Json.JObj [("replyId", Json.JStr "")])) [] [])
              "c1" "t3_abc" "hello")
    as [[req [Hsent Hfail]] _].
  vm_compute in Hsent. injection Hsent as <-.
  apply (Hfail 200 (Json.JObj [("replyId", Json.JStr "")]));
    [ reflexivity | lia | reflexivity ].
Defined.

(** ** Further properties of the callbacks and of the client *)


Lemma or_else_truthy (v fallback : Json.t) :
  Json.truthy (Some v) = true -> or_else (Some v) fallback = v.
Proof. intros H. unfold or_else. now rewrite H. Qed.


(** X1.  No callback ever raises: whatever the backend does, every
    callback returns a result with exactly one block of type text; a get
    tool leaves [isError] out or sets it to [true], a mutation tool always
    sets it. *)
Theorem callback_result_envelope (config : Config) (call : ToolCall) (w : World) :
  exists txt flag,
    fst (run_handler config call w) = Normal (one_text txt flag) /\
    (if is_get call then flag = None \/ flag = Some true
     else exists b, flag = Some b).
Proof.
  destruct call; unfold_async; settle_cases w;
    try (destruct body); simpl;
    do 2 eexists; (split; [ reflexivity | simpl; eauto ]).
Qed.

(** X2.  The three GET tools hand the response data on untouched: on a 2xx
    answer the text is [JSON.stringify] of the body, whatever JSON value it
    is, with indentation 2, and [isError] is left out. *)
Theorem get_data_passed_through (config : Config) (call : ToolCall) (w : World) :
  is_plain_get call = true ->
  exists req,
    sent (snd (run_handler config call w)) = (sent w ++ [req])%list /\
    forall status body,
      backend w (sent w) req = Http.Responded status body ->
      200 <= status < 300 ->
      fst (run_handler config call w)
        = Normal (one_text (Json.stringify body 2) None).
Proof.
  intros Hget.
  destruct call; simpl in Hget; try discriminate; clear Hget;
    unfold_async; eexists;
    (split;
     [ settle_cases w; simpl; reflexivity
     | intros status body Hresp H2xx;
       simpl in Hresp; simpl; rewrite Hresp;
       cbv [Axios.settle]; rewrite (validate_2xx status H2xx);
       reflexivity ]).
Qed.

Lemma get_data_passed_through_witness :
  is_plain_get (Call_get_user_comments None None) = true /\
  fst (run_handler example_config (Call_get_user_comments None None)
         (mkWorld (responding 204 (Json.JStr "")) [] []))
    = Normal (one_text (Str.dquote ++ Str.dquote) None).
Proof.
  split; [ reflexivity | ].
  destruct (get_data_passed_through example_config (Call_get_user_comments None None)
              (mkWorld (responding 204 (Json.JStr "")) [] []) eq_refl)
    as [req [Hsent Hok]].
  vm_compute in Hsent. injection Hsent as <-.
  apply (Hok 204 (Json.JStr "")); [ reflexivity | lia ].
Defined.

(** X3.  A listing tool hands a truthy [posts] member on untouched: on a
    2xx answer the text is [JSON.stringify] of that member alone, array or
    not, and the other members of the body are dropped. *)
Theorem listing_posts_passed_through (config : Config) (call : ToolCall) (w : World) :
  is_listing call = true ->
  exists req,
    sent (snd (run_handler config call w)) = (sent w ++ [req])%list /\
    forall status body posts,
      backend w (sent w) req = Http.Responded status body ->
      200 <= status < 300 ->
      Json.own_field body "posts" = Some posts ->
      Json.truthy (Some posts) = true ->
      fst (run_handler config call w)
        = Normal (one_text (Json.stringify posts 2) None).
Proof.
  intros Hlisting.
  destruct call; simpl in Hlisting; try discriminate; clear Hlisting;
    unfold_async; eexists;
    (split;
     [ settle_cases w;
       [ try (destruct body; simpl; reflexivity) | .. ];
       simpl; reflexivity
     | intros status body posts Hresp H2xx Hposts Htruthy;
       simpl in Hresp; simpl; rewrite Hresp;
       cbv [Axios.settle]; rewrite (validate_2xx status H2xx);
       destruct body; try discriminate;
       cbn [Axios.data fst]; rewrite Hposts;
       rewrite (or_else_truthy _ _ Htruthy);
       reflexivity ]).
Qed.

Lemma listing_posts_passed_through_witness :
  is_listing (Call_get_rising_posts "rust" (Some 3)) = true /\
  fst (run_handler example_config (Call_get_rising_posts "rust" (Some 3))
         (mkWorld (responding 200
                     (Json.JObj [("posts", Json.JNum 7); ("after", Json.JStr "t3_x")]))
            [] []))
    = Normal (one_text "7" None).
Proof.
  split; [ reflexivity | ].
  destruct (listing_posts_passed_through example_config
              (Call_get_rising_posts "rust" (Some 3))
              (mkWorld (responding 200
                          (Json.JObj [("posts", Json.JNum 7); ("after", Json.JStr "t3_x")]))
                 [] []) eq_refl)
    as [req [Hsent Hok]].
  vm_compute in Hsent. injection Hsent as <-.
  apply (Hok 200 (Json.JObj [("posts", Json.JNum 7); ("after", Json.JStr "t3_x")])
           (Json.JNum 7));
    [ reflexivity | lia | reflexivity | reflexivity ].
Defined.






(** X7.  The three GET tools never write to the console, whether their
    request succeeds or fails. *)
Theorem plain_get_console_untouched (config : Config) (call : ToolCall) (w : World) :
  is_plain_get call = true ->
  console (snd (run_handler config call w)) = console w.
Proof.
  intros Hget.
  destruct call; simpl in Hget; try discriminate; clear Hget;
    unfold_async; settle_cases w; reflexivity.
Qed.

Lemma plain_get_console_untouched_witness :
  is_plain_get (Call_get_post_comments "t3_abc" (Some "rust")) = true /\
  console (snd (run_handler example_config
                  (Call_get_post_comments "t3_abc" (Some "rust")) refused_world))
    = [].
Proof.
  split; [ reflexivity | ].
  exact (plain_get_console_untouched example_config
           (Call_get_post_comments "t3_abc" (Some "rust")) refused_world eq_refl).
Defined.

(** X8.  The six methods with a catch block write a failed request to the
    console once, under the label of the method and with the very error
    caught; on a 2xx answer with a body other than [null] they write
    nothing. *)
Theorem caught_error_logged_once (config : Config) (call : ToolCall)
    (label : string) (w : World) :
  console_label call = Some label ->
  exists req,
    sent (snd (run_handler config call w)) = (sent w ++ [req])%list /\
    (forall e,
       answer w req = Throw e ->
       console (snd (run_handler config call w)) = (console w ++ [(label, e)])%list) /\
    (forall status body,
       backend w (sent w) req = Http.Responded status body ->
       200 <= status < 300 ->
       body <> Json.JNull ->
       console (snd (run_handler config call w)) = console w).
Proof.
  intros Hlabel.
  destruct call; simpl in Hlabel; try discriminate;
    injection Hlabel as <-;
    unfold_async; eexists;
    (split;
     [ settle_cases w;
       [ try (destruct body; simpl; reflexivity) | .. ];
       simpl; reflexivity
     | split;
       [ intros err Herr; unfold answer in Herr; simpl in Herr; simpl;
         rewrite Herr; reflexivity
       | intros status body Hresp H2xx Hnull;
         simpl in Hresp; simpl; rewrite Hresp;
         cbv [Axios.settle]; rewrite (validate_2xx status H2xx);
         try (destruct body; try contradiction); reflexivity ] ]).
Qed.

Lemma caught_error_logged_once_witness :
  console_label (Call_get_hot_posts "rust" None) = Some "Failed to get hot posts:" /\
  console (snd (run_handler example_config (Call_get_hot_posts "rust" None)
                  (mkWorld (responding 503 Json.JNull) [] [])))
    = [("Failed to get hot posts:",
        Js.mkError "AxiosError" "Request failed with status code 503")].
Proof.
  split; [ reflexivity | ].
  destruct (caught_error_logged_once example_config (Call_get_hot_posts "rust" None)
              "Failed to get hot posts:"
              (mkWorld (responding 503 Json.JNull) [] []) eq_refl)
    as [req [Hsent [Hfail _]]].
  vm_compute in Hsent. injection Hsent as <-.
  exact (Hfail _ eq_refl).
Defined.

(** X9.  A listing tool answered with a 2xx status and the body [null]:
    reading [posts] throws a TypeError, which the method writes to the
    console and rethrows, and the callback returns it as an error result. *)
Theorem listing_null_body_is_error (config : Config) (call : ToolCall)
    (label : string) (w : World) :
  is_listing call = true ->
  console_label call = Some label ->
  exists req,
    sent (snd (run_handler config call w)) = (sent w ++ [req])%list /\
    forall status,
      backend w (sent w) req = Http.Responded status Json.JNull ->
      200 <= status < 300 ->
      fst (run_handler config call w)
        = Normal (one_text
                    (failure_phrase call
                       ++ "TypeError: Cannot read properties of null (reading 'posts')")
                    (Some true)) /\
      console (snd (run_handler config call w))
        = (console w ++ [(label, Js.null_access "posts")])%list.
Proof.
  intros Hlisting Hlabel.
  destruct call; simpl in Hlisting; try discriminate; clear Hlisting;
    simpl in Hlabel; injection Hlabel as <-;
    unfold_async; eexists;
    (split;
     [ settle_cases w;
       [ try (destruct body; simpl; reflexivity) | .. ];
       simpl; reflexivity
     | intros status Hresp H2xx;
       simpl in Hresp; simpl; rewrite Hresp;
       cbv [Axios.settle]; rewrite (validate_2xx status H2xx);
       split; reflexivity ]).
Qed.

Lemma listing_null_body_is_error_witness :
  is_listing (Call_get_new_posts "rust" (Some 2)) = true /\
  console_label (Call_get_new_posts "rust" (Some 2)) = Some "Failed to get new posts:" /\
  fst (run_handler example_config (Call_get_new_posts "rust" (Some 2))
         (mkWorld (responding 200 Json.JNull) [] []))
    = Normal (one_text
                "Error fetching new posts: TypeError: Cannot read properties of null (reading 'posts')"
                (Some true)).
Proof.
  split; [ reflexivity | split; [ reflexivity | ] ].
  destruct (listing_null_body_is_error example_config
              (Call_get_new_posts "rust" (Some 2)) "Failed to get new posts:"
              (mkWorld (responding 200 Json.JNull) [] []) eq_refl eq_refl)
    as [req [Hsent Herr]].
  vm_compute in Hsent. injection Hsent as <-.
  exact (proj1 (Herr 200 eq_refl ltac:(lia))).
Defined.

Lemma limit_schema_out_of_range (l : Z) :
  l < 1 \/ 100 < l -> limit_schema (Some l) = None.
Proof.
  intros H. unfold limit_schema.
  replace ((1 <=? l) && (l <=? 100)) with false; [ reflexivity | ].
  symmetry. apply andb_false_iff. lia.
Qed.

Lemma limit_schema_range (input : option Z) (l : Z) :
  limit_schema input = Some l -> 1 <= l <= 100.
Proof.
  unfold limit_schema. destruct input as [n |].
  - destruct ((1 <=? n) && (n <=? 100)) eqn:H; [ | discriminate ].
    intros Heq. injection Heq as <-. apply andb_true_iff in H. lia.
  - intros Heq. injection Heq as <-. lia.
Qed.

(** X10.  A limit below 1 or above 100 stops at the input schema: the
    callback does not run, no request is sent, nothing is written to the
    console. *)
Theorem out_of_range_limit_sends_nothing (config : Config) (call : ToolCall)
    (l : Z) (w : World) :
  call_limit call = Some (Some l) ->
  l < 1 \/ 100 < l ->
  call_tool config call w = (Normal None, w).
Proof.
  intros Hcall Hrange.
  destruct call; simpl in Hcall; try discriminate;
    injection Hcall as ->;
    unfold call_tool, parse_arguments;
    rewrite (limit_schema_out_of_range l Hrange); reflexivity.
Qed.

Lemma out_of_range_limit_sends_nothing_witness :
  (101 < 1 \/ 100 < 101) /\
  call_tool example_config (Call_get_new_posts "rust" (Some 101)) refused_world
    = (Normal None, refused_world).
Proof.
  split; [ lia | ].
  apply (out_of_range_limit_sends_nothing example_config
           (Call_get_new_posts "rust" (Some 101)) 101 refused_world);
    [ reflexivity | lia ].
Defined.

(** The requests a tool invocation adds to the log. *)
Lemma call_tool_sent (config : Config) (call : ToolCall) (w : World) :
  (parse_arguments call = None /\ sent (snd (call_tool config call w)) = sent w) \/
  exists parsed req,
    parse_arguments call = Some parsed /\
    sent (snd (call_tool config call w)) = (sent w ++ [req])%list /\
    sent (snd (run_handler config parsed w)) = (sent w ++ [req])%list.
Proof.
  destruct (parse_arguments call) as [parsed |] eqn:Hparse.
  - right. destruct (run_handler_request config parsed w) as [req [Hsent _]].
    exists parsed, req. split; [ reflexivity | ].
    rewrite (call_tool_accepted config call parsed w Hparse).
    split; exact Hsent.
  - left. split; [ reflexivity | ].
    unfold call_tool. rewrite Hparse. reflexivity.
Qed.

Lemma app_one_inv {A : Type} (l : list A) (x y : A) :
  (l ++ [x])%list = (l ++ [y])%list -> x = y.
Proof. intros H. apply app_inv_head in H. now injection H. Qed.

Lemma app_one_neq {A : Type} (l : list A) (x : A) : l <> (l ++ [x])%list.
Proof.
  intros H. apply (f_equal (@List.length A)) in H.
  rewrite length_app in H. simpl in H. lia.
Qed.

(** The limit a callback puts in its request. *)
Lemma run_handler_limit (config : Config) (call : ToolCall) (w : World) :
  exists req,
    sent (snd (run_handler config call w)) = (sent w ++ [req])%list /\
    carried_limit req
      = match call_limit call with
        | Some limit => Some (Json.JNum (default_to limit 25))
        | None => None
        end.
Proof.
  destruct call; unfold_async; eexists;
    (split;
     [ settle_cases w;
       [ try (destruct body; simpl; reflexivity) | .. ];
       simpl; reflexivity
     | reflexivity ]).
Qed.

(** X11.  Whatever the arguments of a tool invocation, a limit that
    reaches the backend is a number between 1 and 100. *)
Theorem sent_limit_in_range (config : Config) (call : ToolCall) (w : World)
    (req : Http.Request) (v : Json.t) :
  sent (snd (call_tool config call w)) = (sent w ++ [req])%list ->
  carried_limit req = Some v ->
  exists l, v = Json.JNum l /\ 1 <= l <= 100.
Proof.
  intros Hsent Hlimit.
  destruct (call_tool_sent config call w)
    as [[_ Hnone] | [parsed [req' [Hparse [Hsent' Hrun]]]]].
  - rewrite Hnone in Hsent. destruct (app_one_neq _ _ Hsent).
  - rewrite Hsent' in Hsent. apply app_one_inv in Hsent. subst req'.
    destruct (run_handler_limit config parsed w) as [req' [Hrun' Hcarried]].
    rewrite Hrun in Hrun'. apply app_one_inv in Hrun'. subst req'.
    rewrite Hlimit in Hcarried.
    destruct call; simpl in Hparse;
      try (injection Hparse as <-; simpl in Hcarried; discriminate);
      destruct (limit_schema limit) as [l |] eqn:Hschema; simpl in Hparse;
      try discriminate; injection Hparse as <-;
      simpl in Hcarried; injection Hcarried as ->;
      exists l; (split; [ reflexivity | exact (limit_schema_range _ _ Hschema) ]).
Qed.

Lemma sent_limit_in_range_witness :
  exists l, Json.JNum 25 = Json.JNum l /\ 1 <= l <= 100.
Proof.
  apply (sent_limit_in_range example_config (Call_get_user_posts (Some "alice") None)
           refused_world
           {| Http.method := Http.GET;
              Http.baseURL := "https://reddable.vercel.app";
              Http.url := "/api/reddit/mcp/user-posts";
              Http.headers := [("Authorization", "Bearer secret");
                               ("Content-Type", "application/json")];
              Http.params := [("username", Some (Json.JStr "alice"));
                              ("limit", Some (Json.JNum 25))];
              Http.data := None |}
           (Json.JNum 25));
    reflexivity.
Defined.

(** X12.  The callbacks and the client check no bound: a callback run
    directly on any limit, 0 or 500 as well, sends that limit. *)
Theorem callback_forwards_any_limit (config : Config) (call : ToolCall)
    (l : Z) (w : World) :
  call_limit call = Some (Some l) ->
  exists req,
    sent (snd (run_handler config call w)) = (sent w ++ [req])%list /\
    carried_limit req = Some (Json.JNum l).
Proof.
  intros Hcall.
  destruct (run_handler_limit config call w) as [req [Hsent Hcarried]].
  exists req. split; [ exact Hsent | ].
  rewrite Hcarried, Hcall. reflexivity.
Qed.

Lemma callback_forwards_any_limit_witness :
  exists req,
    sent (snd (run_handler example_config (Call_get_hot_posts "rust" (Some 500))
                 refused_world))
      = ([] ++ [req])%list /\
    carried_limit req = Some (Json.JNum 500).
Proof.
  apply (callback_forwards_any_limit example_config
           (Call_get_hot_posts "rust" (Some 500)) 500 refused_world).
  reflexivity.
Defined.

(** X13.  Every argument reaches the backend verbatim under its own name:
    the request carries exactly the arguments of the call, in the order of
    the source, strings unchanged; an optional string left out is carried as
    [undefined], a limit left out as 25. *)
Theorem arguments_forwarded_verbatim (config : Config) (call : ToolCall) (w : World) :
  exists req,
    sent (snd (run_handler config call w)) = (sent w ++ [req])%list /\
    request_args req = call_args call.
Proof.
  destruct call; unfold_async; eexists;
    (split;
     [ settle_cases w;
       [ try (destruct body; simpl; reflexivity) | .. ];
       simpl; reflexivity
     | reflexivity ]).
Qed.

(** X14.  The request of a call is fixed by the configuration and the
    call: it is the same request whatever was sent or logged before and
    whatever the backend is. *)
Theorem request_fixed_by_call (config : Config) (call : ToolCall) :
  exists req,
    forall w, sent (snd (run_handler config call w)) = (sent w ++ [req])%list.
Proof.
  destruct call; unfold_async; eexists; intros w;
    (settle_cases w;
     [ try (destruct body; simpl; reflexivity) | .. ];
     simpl; reflexivity).
Qed.

(** X15.  The result of a call is fixed by the call and by what the backend
    answers to its one request: the key, the requests sent before and the
    console have no part in it. *)
Theorem result_fixed_by_answer (call : ToolCall) :
  exists f : Http.Outcome -> Completion ToolResult,
    forall config w,
      exists req,
        sent (snd (run_handler config call w)) = (sent w ++ [req])%list /\
        fst (run_handler config call w) = f (backend w (sent w) req).
Proof.
  exists (fun outcome =>
            fst (run_handler (mkConfig "") call (mkWorld (fun _ _ => outcome) [] []))).
  intros config w.
  destruct call; unfold_async; eexists;
    (split;
     [ settle_cases w;
       [ try (destruct body; reflexivity) | .. ];
       reflexivity
     | cbn [backend sent];
       destruct (backend w (sent w) _) as [st body | e]; cbv [Axios.settle];
       [ destruct (Axios.validateStatus st); [ try (destruct body) | ] | ];
       reflexivity ]).
Qed.

Lemma run_handler_completes (config : Config) (call : ToolCall) (w : World) :
  exists result, fst (run_handler config call w) = Normal result.
Proof.
  destruct call; unfold_async; settle_cases w;
    try (destruct body); simpl; eexists; reflexivity.
Qed.

(** X16.  Calls compose without interference: two calls run one after the
    other both complete, and they add to the log exactly their two
    requests, in the order of the calls, each as its tool documents it. *)
Theorem two_calls_two_requests (config : Config) (first second : ToolCall)
    (w : World) :
  exists r1 r2,
    sent (snd (run_two config first second w)) = (sent w ++ [r1; r2])%list /\
    documented_request config first r1 /\
    documented_request config second r2 /\
    exists a b, fst (run_two config first second w) = Normal (a, b).
Proof.
  destruct (run_handler_request config first w) as [r1 [Hs1 Hd1]].
  destruct (run_handler_completes config first w) as [a Ha].
  destruct (run_handler config first w) as [c1 w1] eqn:H1.
  simpl in Hs1, Ha. subst c1.
  destruct (run_handler_request config second w1) as [r2 [Hs2 Hd2]].
  destruct (run_handler_completes config second w1) as [b Hb].
  destruct (run_handler config second w1) as [c2 w2] eqn:H2.
  simpl in Hs2, Hb. subst c2.
  exists r1, r2. unfold run_two, bind, ret. rewrite H1, H2. simpl.
  split; [ | split; [ exact Hd1 | split; [ exact Hd2 | ] ] ].
  - rewrite Hs2, Hs1. rewrite <- app_assoc. reflexivity.
  - exists a, b. reflexivity.
Qed.

(** X17.  Leaving the limit out is the same as passing 25: the three
    defaults (input schema, callback, client method) agree, so the two
    invocations, and the two direct runs of the callback, give the same
    result and leave the same world. *)
Theorem omitted_limit_is_25 (config : Config) (call : ToolCall) (w : World) :
  call_limit call = Some None ->
  call_tool config call w = call_tool config (set_limit call (Some 25)) w /\
  run_handler config call w = run_handler config (set_limit call (Some 25)) w.
Proof.
  intros Hcall.
  destruct call; simpl in Hcall; try discriminate;
    injection Hcall as ->; split; reflexivity.
Qed.

Lemma omitted_limit_is_25_witness :
  call_tool example_config (Call_get_user_comments (Some "alice") None) refused_world
    = call_tool example_config (Call_get_user_comments (Some "alice") (Some 25))
        refused_world.
Proof.
  exact (proj1 (omitted_limit_is_25 example_config
                  (Call_get_user_comments (Some "alice") None) refused_world eq_refl)).
Defined.
